(** * xrp-batch-payout: the payment submitter and the confirmation watcher

    A shallow embedding of [src/lib/xrp.ts] ([connectToLedger],
    [generateWallet], [submitPayment], [checkPayment]), of the call that
    [payout] makes into the batch loop, and of [payout] itself over the
    functions it imports.

    Conventions of the embedding.
    - A JavaScript call either returns a value or throws: [Completion].
      A rejected promise of an [async] function is the [Throw] alternative.
    - The XRP ledger is the only state the functions act on.  It is
      threaded explicitly ([Async]) as the log of the calls made to the
      client: every [send] and every [getPaymentStatus], most recent first.
    - What the client answers is not decided by this repository: an
      [XrpClient] carries, for the n-th call of each kind, the answer the
      network gives (a value or an exception).
    - The functions of xpring-js ([encodeXAddress], [xrpToDrops], the
      wallet factory and the address validators) and the constant
      [retryLimit] of [./config] are parameters of the development: the
      interfaces [XpringJs] and [Config].
    - [index] and [numRetries] are JavaScript numbers that hold integers;
      they are modelled as [Z].  USD and XRP amounts are binary64 floats.
    - Calls to [log.info] write to the process log only and are left out;
      the [log.error] of [payout] is kept, as the error log of the run. *)

From Stdlib Require Import ZArith List String Bool Lia.
From Stdlib Require Import Floats.PrimFloat.
Import ListNotations.

Open Scope Z_scope.

(** ** Completions: return or throw *)

(** The [Error] values the code throws, and those coming out of xpring-js. *)
Inductive Error : Type :=
| RetryLimitReached (numRetries : Z)
    (* Error(`Retry limit of ${numRetries} reached. Transaction still pending.`) *)
| TransactionFailed
    (* Error('Transaction failed.') *)
| WalletGenerationFailed
    (* Error('Failed to generate wallet from secret.') *)
| LibraryError (message : string).
    (* thrown inside xpring-js: transport, validation, conversion *)

Inductive Completion (A : Type) : Type :=
| Return (a : A)
| Throw (e : Error).

Arguments Return {A} a.
Arguments Throw {A} e.

Definition isReturn {A} (c : Completion A) : bool :=
  match c with Return _ => true | Throw _ => false end.

(** ** Types of xpring-js and of [./schema] *)

Inductive XrplNetwork : Type := Dev | Test | Main.

Module TransactionStatus.

Inductive t : Type := Failed | Pending | Succeeded | Unknown.

End TransactionStatus.

(** What [XrpUtils.decodeXAddress] returns when it returns an object. *)
Record DecodedXAddress : Type := {
  decodedAddress : string;
  decodedTag : option Z;
  decodedTest : bool
}.

(** [TxInput] of [./schema], as [submitPayment] destructures it. *)
Record TxInput : Type := {
  address : string;
  destinationTag : option Z;
  usdAmount : float;
  name : string
}.

(** The part of xpring-js and xpring-common-js that [xrp.ts] calls.  An
    argument that the code casts with [as string] may be [undefined] at run
    time, hence [option string]. *)
Class XpringJs : Type := {
  (* the wallet object and its [getAddress] method *)
  Wallet : Type;
  getAddress : Wallet -> string;
  (* [new WalletFactory(network).walletFromSeed(secret)]: a wallet or [undefined] *)
  walletFromSeed : XrplNetwork -> string -> Completion (option Wallet);
  (* [XrpUtils] *)
  decodeXAddress : option string -> Completion (option DecodedXAddress);
  isValidXAddress : option string -> bool;
  isValidClassicAddress : option string -> bool;
  encodeXAddress : string -> option Z -> Completion (option string);
  xrpToDrops : float -> Completion string
}.

(** [./config]. *)
Class Config : Type := {
  retryLimit : Z
}.

(** [TransactionOutcome] of the specification's data model. *)
Inductive TransactionOutcome : Type :=
| Confirmed (txId : string)
| Failed (reason : Error)
| TimedOut (txId : string) (retriesExhausted : bool).

(** The value of a parameter that has a default. *)
Definition withDefault {A} (default : A) (argument : option A) : A :=
  match argument with
  | Some a => a
  | None => default
  end.

Section Embedding.

Context {lib : XpringJs} {cfg : Config}.

(** ** The ledger as seen through the client *)

Record Payment : Type := {
  paidDrops : string;
  paidTo : option string;
  paidFrom : Wallet
}.

Record Ledger : Type := {
  sent : list Payment;      (* the calls of [send], most recent first *)
  queried : list string     (* the calls of [getPaymentStatus], most recent first *)
}.

Definition sends (l : Ledger) : nat := List.length (sent l).

Definition polls (l : Ledger) : nat := List.length (queried l).

Definition recordSend (p : Payment) (l : Ledger) : Ledger :=
  {| sent := p :: sent l; queried := queried l |}.

Definition recordQuery (txHash : string) (l : Ledger) : Ledger :=
  {| sent := sent l; queried := txHash :: queried l |}.

(** The ledger after [k] more status queries for [txHash] and nothing else. *)
Definition polled (txHash : string) (k : nat) (l : Ledger) : Ledger :=
  Nat.iter k (recordQuery txHash) l.

(** An asynchronous computation: it acts on the ledger and completes. *)
Definition Async (A : Type) : Type := Ledger -> Completion A * Ledger.

Definition ret {A} (a : A) : Async A := fun l => (Return a, l).

Definition bind {A B} (m : Async A) (k : A -> Async B) : Async B :=
  fun l =>
    match m l with
    | (Return a, l') => k a l'
    | (Throw e, l') => (Throw e, l')
    end.

(** A library call that touches no ledger state. *)
Definition call {A} (c : Completion A) : Async A := fun l => (c, l).

Notation "x <- m ;; k" := (bind m (fun x => k))
  (at level 61, m at next level, right associativity).

(** The network behind an [XrpClient]: the answer to the n-th [send] and
    to the n-th [getPaymentStatus]. *)
Record XrpClient : Type := {
  sendReply : nat -> string -> option string -> Wallet -> Completion string;
  statusReply : nat -> string -> Completion TransactionStatus.t
}.

Definition send (xrpClient : XrpClient) (amount : string)
    (destination : option string) (senderWallet : Wallet) : Async string :=
  fun l =>
    (sendReply xrpClient (sends l) amount destination senderWallet,
     recordSend {| paidDrops := amount; paidTo := destination;
                   paidFrom := senderWallet |} l).

Definition getPaymentStatus (xrpClient : XrpClient) (txHash : string)
    : Async TransactionStatus.t :=
  fun l => (statusReply xrpClient (polls l) txHash, recordQuery txHash l).

(** ** [generateWallet] (xrp.ts, lines 54-82) *)

Definition isDefined {A} (o : option A) : bool :=
  match o with Some _ => true | None => false end.

Definition generateWallet (secret : string) (network : XrplNetwork)
    : Completion (option Wallet * option string) :=
  match walletFromSeed network secret with
  | Throw e => Throw e
  | Return wallet =>
      let xAddress := option_map getAddress wallet in
      match decodeXAddress xAddress with
      | Throw e => Throw e
      | Return decoded =>
          let classicAddress := option_map decodedAddress decoded in
          if negb (isDefined wallet)
             || negb (isValidXAddress xAddress)
             || negb (isValidClassicAddress classicAddress)
          then Throw WalletGenerationFailed
          else Return (wallet, classicAddress)
      end
  end.

(** ** [submitPayment] (xrp.ts, lines 95-130) *)

Definition submitPayment (senderWallet : Wallet) (xrpClient : XrpClient)
    (receiverAccount : TxInput) (usdToXrpRate : float) : Async string :=
  let destinationClassicAddress := address receiverAccount in
  let destinationTag := destinationTag receiverAccount in
  let usdAmount := usdAmount receiverAccount in
  destinationXAddress <-
    call (encodeXAddress destinationClassicAddress destinationTag) ;;
  let xrpDestinationAmount := (usdAmount / usdToXrpRate)%float in
  dropDestinationAmount <- call (xrpToDrops xrpDestinationAmount) ;;
  txHash <-
    send xrpClient dropDestinationAmount destinationXAddress senderWallet ;;
  ret txHash.

(** ** [checkPayment] (xrp.ts, lines 144-174) *)

(** The recursion of [checkPayment] is not structural (and, as shown
    below, not always terminating), so the embedding takes fuel: one unit
    per invocation.  [None] means the fuel ran out.  The two optional
    arguments are the parameters with defaults, [numRetries = retryLimit]
    and [index = 0].  The recursive call is the one of line 166:
    [checkPayment(xrpClient, txHash, newIndex, retryLimit)]. *)
Fixpoint checkPayment (fuel : nat) (xrpClient : XrpClient) (txHash : string)
    (numRetries index : option Z) (l : Ledger)
    : option (Completion unit * Ledger) :=
  match fuel with
  | O => None
  | S fuel' =>
      let numRetries := withDefault retryLimit numRetries in
      let index := withDefault 0 index in
      match getPaymentStatus xrpClient txHash l with
      | (Throw e, l1) => Some (Throw e, l1)
      | (Return txStatus, l1) =>
          match txStatus with
          | TransactionStatus.Succeeded => Some (Return tt, l1)
          | TransactionStatus.Pending =>
              if index >=? numRetries
              then Some (Throw (RetryLimitReached numRetries), l1)
              else
                let newIndex := index + 1 in
                checkPayment fuel' xrpClient txHash
                  (Some newIndex) (Some retryLimit) l1
          | TransactionStatus.Failed
          | TransactionStatus.Unknown => Some (Throw TransactionFailed, l1)
          end
      end
  end.

(** ** The batch loop *)

(** Modelled from the spec: what the Batch Orchestrator makes of the
    completion of the watcher (sections 4.2 and 4.3), which the source
    files do not contain.  A normal return is [Confirmed]; the retry-limit
    error is [TimedOut] with the retries exhausted; the error of a rejected
    or unknown transaction is [Failed].  Any other exception is one of the
    ledger session (the transport level): section 4.2 makes it fatal for
    the calling context, so it is thrown on. *)
Definition watcherOutcome (txHash : string) (c : Completion unit)
    : Completion TransactionOutcome :=
  match c with
  | Return _ => Return (Confirmed txHash)
  | Throw (RetryLimitReached _) => Return (TimedOut txHash true)
  | Throw TransactionFailed => Return (Failed TransactionFailed)
  | Throw e => Throw e
  end.

(** Modelled from the spec: one round of the Batch Orchestrator of section
    4.3, which the source files do not contain.  The submitter runs; if it
    fails the outcome is [Failed] and the watcher is not invoked; otherwise
    the watcher runs and its terminal outcome is the recipient's outcome.
    The submitter and the watcher are [submitPayment] and [checkPayment]
    above; an exception of [submitPayment] is the submission error of the
    specification. *)
Definition payRecipient (fuel : nat) (senderWallet : Wallet)
    (xrpClient : XrpClient) (usdToXrpRate : float) (numRetries : Z)
    (txInput : TxInput) (l : Ledger)
    : option (Completion TransactionOutcome * Ledger) :=
  match submitPayment senderWallet xrpClient txInput usdToXrpRate l with
  | (Throw e, l1) => Some (Return (Failed e), l1)
  | (Return txHash, l1) =>
      match checkPayment fuel xrpClient txHash (Some numRetries) None l1 with
      | None => None
      | Some (c, l2) => Some (watcherOutcome txHash c, l2)
      end
  end.

(** Modelled from the spec: [reliableBatchPayment], which [payout] imports
    from [../lib/xrp] and which the source files do not contain.  It is the
    Batch Orchestrator of section 4.3: for each recipient in input order it
    runs the submitter; a submission error is recorded as [Failed] and the
    watcher is not invoked; otherwise the watcher runs and its terminal
    outcome is recorded; the next recipient follows.  A fatal exception
    ends the batch: the records of the prior recipients stay as they are,
    and the exception is the second component of the result.  The first
    component lists the records appended to the result sink; [fuel] is the
    fuel of each run of the watcher. *)
Fixpoint reliableBatchPayment (fuel : nat) (txInputs : list TxInput)
    (senderWallet : Wallet) (xrpClient : XrpClient) (usdToXrpRate : float)
    (numRetries : Z) (l : Ledger)
    : option (list (TxInput * TransactionOutcome) * option Error * Ledger) :=
  match txInputs with
  | [] => Some ([], None, l)
  | txInput :: rest =>
      match payRecipient fuel senderWallet xrpClient usdToXrpRate
              numRetries txInput l with
      | None => None
      | Some (Throw fatal, l1) => Some ([], Some fatal, l1)
      | Some (Return outcome, l1) =>
          match reliableBatchPayment fuel rest senderWallet xrpClient
                  usdToXrpRate numRetries l1 with
          | None => None
          | Some (records, fatal, l2) =>
              Some ((txInput, outcome) :: records, fatal, l2)
          end
      end
  end.

(** The call that ends [payout] (bin/payout, lines 61-69): the number of
    retries handed to the batch is [retryLimit]. *)
Definition payoutBatch (fuel : nat) (txInputs : list TxInput)
    (wallet : Wallet) (xrpNetworkClient : XrpClient) (usdToXrpRate : float)
    (l : Ledger)
    : option (list (TxInput * TransactionOutcome) * option Error * Ledger) :=
  reliableBatchPayment fuel txInputs wallet xrpNetworkClient usdToXrpRate
    retryLimit l.

End Embedding.

(** * Fixtures: a library, two configurations and scripted networks *)

(** A stand-in for xpring-js with string wallets.  Only whole amounts of
    20 XRP convert; everything else is refused as the library refuses an
    amount with too many decimal places. *)
Definition fixtureLib : XpringJs := {|
  Wallet := string;
  getAddress := fun w => w;
  walletFromSeed := fun _ secret =>
    if String.eqb secret "" then Return None
    else Return (Some (String.append "X" secret));
  decodeXAddress := fun x =>
    Return (option_map
              (fun a => {| decodedAddress := String.append "r" a;
                           decodedTag := None; decodedTest := true |}) x);
  isValidXAddress := isDefined;
  isValidClassicAddress := isDefined;
  encodeXAddress := fun a _ =>
    if String.eqb a "" then Return None else Return (Some (String.append "X" a));
  xrpToDrops := fun x =>
    if PrimFloat.eqb x 20
    then Return "20000000"%string
    else Throw (LibraryError "xrpToDrops: value has too many decimal places.")
|}.

(** The default of the specification, and a limit of zero. *)
Definition config3 : Config := {| retryLimit := 3 |}.

Definition config0 : Config := {| retryLimit := 0 |}.

(** A network that answers the n-th [send] with the n-th entry of
    [submissions] and the n-th status query with the n-th entry of
    [statuses]; past the end of [statuses] it answers [lastStatus]. *)
Definition scriptedClient (submissions : list (Completion string))
    (statuses : list TransactionStatus.t) (lastStatus : TransactionStatus.t)
    : @XrpClient fixtureLib := {|
  sendReply := fun n _ _ _ =>
    nth n submissions (Throw (LibraryError "send: connection lost"));
  statusReply := fun n _ => Return (nth n statuses lastStatus)
|}.

(** Networks used below: one that refuses the first submission, one whose
    first status answer is [Unknown], one that stays pending. *)
Definition rejectingClient : @XrpClient fixtureLib :=
  scriptedClient [Throw (LibraryError "send: rejected")] []
    TransactionStatus.Pending.

Definition unknownClient : @XrpClient fixtureLib :=
  scriptedClient [] [TransactionStatus.Unknown] TransactionStatus.Pending.

Definition pendingClient : @XrpClient fixtureLib :=
  scriptedClient [] [] TransactionStatus.Pending.


Definition emptyLedger : @Ledger fixtureLib := {| sent := []; queried := [] |}.

Definition fixtureWallet : @Wallet fixtureLib := "Xsender"%string.

Definition fixturePayment (amount : string) (destination : option string)
    : @Payment fixtureLib :=
  @Build_Payment fixtureLib amount destination fixtureWallet.

Definition recipient (who : string) (usd : float) : TxInput :=
  {| address := String.append "r" who; destinationTag := None;
     usdAmount := usd; name := who |}.

(** * The callers: [connectToLedger] and [payout] *)

Section Connection.

Context {lib : XpringJs}.

(** The [XrpClient] object with the one further method that
    [connectToLedger] calls: the answer to the n-th [getBalance]. *)
Record BalanceClient : Type := {
  asXrpClient : XrpClient;
  balanceReply : nat -> option string -> Completion Z
}.

(** The ledger together with the log of the balance queries, most recent
    first. *)
Record Session : Type := {
  ledger : Ledger;
  balancesAsked : list (option string)
}.

Definition getBalance (xrpClient : BalanceClient) (xAddress : option string)
    (s : Session) : Completion Z * Session :=
  (balanceReply xrpClient (List.length (balancesAsked s)) xAddress,
   {| ledger := ledger s; balancesAsked := xAddress :: balancesAsked s |}).

End Connection.

(** What [connectToLedger] takes from the libraries: the constructor
    [new XrpClient(grpcUrl, network, useWeb)], [encodeXAddress] of the
    default import [xrpUtils] of xpring-common-js (its argument may be
    [undefined] at run time), and [XrpUtils.dropsToXrp]. *)
Class XpringConnect {lib : XpringJs} : Type := {
  newXrpClient : string -> XrplNetwork -> bool -> BalanceClient;
  xrpUtilsEncodeXAddress : option string -> Z -> Completion (option string);
  dropsToXrp : Z -> Completion string
}.

(** [SenderInput] of [./schema], as [payout] reads it. *)
Record SenderInput : Type := {
  inputCsv : string;
  outputCsv : string;
  network : XrplNetwork;
  grpcUrl : string;
  usdToXrpRate : float;
  secret : string;
  confirmed : bool
}.

(** What [payout] imports and the source files do not contain: the two
    parsers of [../lib/io] (with [questions] and the schemas applied; the
    CSV parser is given the path whose read stream it consumes), and the
    batch loop, here any function of the arguments that [payout] hands over
    (the input rows, the path of the output stream, the wallet, the client,
    the rate, the number of retries) acting on the ledger. *)
Class PayoutImports {lib : XpringJs} : Type := {
  Override : Type;
  parseFromPromptToObject : option Override -> Completion SenderInput;
  parseFromCsvToArray : string -> Completion (list TxInput);
  reliableBatchPayment' :
    list TxInput -> string -> option Wallet -> XrpClient -> float -> Z ->
    Ledger -> Completion unit * Ledger
}.

(** [Error('XRP payout stopped.')]. *)
Definition payoutStopped : Error := LibraryError "XRP payout stopped.".

(** The [TypeError] that the runtime throws when an array pattern is
    matched against a value that is not iterable. *)
Definition notIterable : Error :=
  LibraryError "TypeError: object is not iterable".

Section Payout.

Context {lib : XpringJs} {cfg : Config} {con : XpringConnect}
        {imports : PayoutImports}.

(** ** [connectToLedger] (xrp.ts, lines 25-43) *)

Definition connectToLedger (grpcUrl : string) (network : XrplNetwork)
    (classicAddress : option string) (s : Session)
    : Completion BalanceClient * Session :=
  let xrpClient := newXrpClient grpcUrl network true in
  match xrpUtilsEncodeXAddress classicAddress 0 with
  | Throw e => (Throw e, s)
  | Return xAddress =>
      match getBalance xrpClient xAddress s with
      | (Throw e, s1) => (Throw e, s1)
      | (Return drops, s1) =>
          match dropsToXrp drops with
          | Throw e => (Throw e, s1)
          | Return balance => (Return xrpClient, s1)
          end
      end
  end.

(** ** [payout] (bin/payout, lines 25-73) *)

(** What a run of the script acts on: the session, the write streams it
    created (by path, most recent first) and the errors it logged with
    [log.error] (most recent first). *)
Record Process : Type := {
  session : Session;
  writeStreams : list string;
  errorLog : list Error
}.

Definition Job (A : Type) : Type := Process -> Completion A * Process.

Definition done {A} (a : A) : Job A := fun p => (Return a, p).

Definition raise {A} (e : Error) : Job A := fun p => (Throw e, p).

Definition andThen {A B} (m : Job A) (k : A -> Job B) : Job B :=
  fun p =>
    match m p with
    | (Return a, p') => k a p'
    | (Throw e, p') => (Throw e, p')
    end.

(** [try { body } catch (err) { handler }]. *)
Definition tryCatch {A} (body : Job A) (handler : Error -> Job A) : Job A :=
  fun p =>
    match body p with
    | (Return a, p') => (Return a, p')
    | (Throw err, p') => handler err p'
    end.

(** A call that acts on nothing the process holds. *)
Definition pure {A} (c : Completion A) : Job A := fun p => (c, p).

(** A call that acts on the session. *)
Definition inSession {A} (m : Session -> Completion A * Session) : Job A :=
  fun p =>
    let (c, s) := m (session p) in
    (c, {| session := s; writeStreams := writeStreams p;
           errorLog := errorLog p |}).

(** A call that acts on the ledger. *)
Definition inLedger {A} (m : Ledger -> Completion A * Ledger) : Job A :=
  inSession (fun s =>
    let (c, l) := m (ledger s) in
    (c, {| ledger := l; balancesAsked := balancesAsked s |})).

Definition createWriteStream (path : string) : Job string :=
  fun p =>
    (Return path, {| session := session p;
                     writeStreams := path :: writeStreams p;
                     errorLog := errorLog p |}).

Definition logError (err : Error) : Job unit :=
  fun p =>
    (Return tt, {| session := session p; writeStreams := writeStreams p;
                   errorLog := err :: errorLog p |}).

Notation "x <~ m ;; k" := (andThen m (fun x => k))
  (at level 61, m at next level, right associativity).

(** [const [first] = value] for the value that [connectToLedger] returns.
    [connectToLedger] of xrp.ts returns the [XrpClient] object itself, which
    is not iterable: the array pattern of line 53 throws, and no client is
    bound. *)
Definition firstOfArray (value : BalanceClient) : Completion BalanceClient :=
  Throw notIterable.

(** The read stream of [fs.createReadStream] is consumed by the CSV
    parser.  Lines 60-69 are kept as they are written, after the binding of
    line 53. *)
Definition payout (override : option Override) : Job unit :=
  tryCatch
    (senderInput <~ pure (parseFromPromptToObject override) ;;
     _ <~ (if negb (confirmed senderInput)
           then raise payoutStopped else done tt) ;;
     txInputs <~ pure (parseFromCsvToArray (inputCsv senderInput)) ;;
     generated <~ pure (generateWallet (secret senderInput)
                          (network senderInput)) ;;
     let wallet := fst generated in
     let classicAddress := snd generated in
     connected <~
       inSession (connectToLedger (grpcUrl senderInput)
                    (network senderInput) classicAddress) ;;
     xrpNetworkClient <~ pure (firstOfArray connected) ;;
     txOutputWriteStream <~ createWriteStream (outputCsv senderInput) ;;
     inLedger (reliableBatchPayment' txInputs txOutputWriteStream wallet
                 (asXrpClient xrpNetworkClient)
                 (usdToXrpRate senderInput) retryLimit))
    (fun err => logError err).

End Payout.

(** ** Fixtures for the callers *)

(** A node that answers every balance query with 1000 XRP in drops, except
    at the URL ["down"], where the query fails. *)
Definition fixtureNode (grpcUrl : string) : @BalanceClient fixtureLib := {|
  asXrpClient := scriptedClient [Return "T1"%string] []
                   TransactionStatus.Succeeded;
  balanceReply := fun _ _ =>
    if String.eqb grpcUrl "down"
    then Throw (LibraryError "getBalance: unavailable")
    else Return 1000000000
|}.

Definition fixtureConnect : @XpringConnect fixtureLib := {|
  newXrpClient := fun grpcUrl _ _ => fixtureNode grpcUrl;
  xrpUtilsEncodeXAddress := fun a _ =>
    Return (option_map (String.append "X") a);
  dropsToXrp := fun drops =>
    if drops <? 0 then Throw (LibraryError "dropsToXrp: invalid value")
    else Return "1000"%string
|}.

Definition emptySession : @Session fixtureLib :=
  {| ledger := emptyLedger; balancesAsked := [] |}.

Definition emptyProcess : @Process fixtureLib :=
  {| session := emptySession; writeStreams := []; errorLog := [] |}.

(** What the operator entered: the secret, the URL and the confirmation. *)
Definition senderInputOf (seed url : string) (confirm : bool) : SenderInput :=
  {| inputCsv := "in.csv"; outputCsv := "out.csv"; network := Test;
     grpcUrl := url; usdToXrpRate := 0.5%float; secret := seed;
     confirmed := confirm |}.

(** The imports of [payout]: the override is the sender input itself, the
    input file holds one row, and the batch submits each row once. *)
Definition fixtureImports : @PayoutImports fixtureLib := {|
  Override := SenderInput;
  parseFromPromptToObject := fun override =>
    match override with
    | Some senderInput => Return senderInput
    | None => Throw (LibraryError "prompt: no answers")
    end;
  parseFromCsvToArray := fun path =>
    if String.eqb path "in.csv" then Return [recipient "alice" 10]
    else Throw (LibraryError "csv: no such file");
  reliableBatchPayment' := fun txInputs _ wallet xrpClient rate _ l =>
    match wallet with
    | None => (Throw WalletGenerationFailed, l)
    | Some w =>
        fold_left
          (fun acc txInput =>
             (Return tt,
              snd (@submitPayment fixtureLib w xrpClient txInput rate (snd acc))))
          txInputs (Return tt, l)
    end
|}.

(** * Properties *)

Section WatcherFacts.

Context {lib : XpringJs} {cfg : Config}.

Variable xrpClient : XrpClient.
Variable txHash : string.

(** ** Bookkeeping on the ledger log *)

Lemma polls_recordQuery (l : Ledger) :
  polls (recordQuery txHash l) = S (polls l).
Proof. reflexivity. Qed.

Lemma polled_S (k : nat) (l : Ledger) :
  polled txHash (S k) l = recordQuery txHash (polled txHash k l).
Proof. reflexivity. Qed.

Lemma polls_polled (k : nat) (l : Ledger) :
  polls (polled txHash k l) = (k + polls l)%nat.
Proof.
  induction k as [|k IH]; [reflexivity|].
  rewrite polled_S, polls_recordQuery, IH. reflexivity.
Qed.

Lemma sent_polled (k : nat) (l : Ledger) :
  sent (polled txHash k l) = sent l.
Proof.
  induction k as [|k IH]; [reflexivity|].
  rewrite polled_S. exact IH.
Qed.

(** ** One invocation of [checkPayment], branch by branch *)

Lemma checkPayment_succeeded fuel numRetries index l :
  statusReply xrpClient (polls l) txHash = Return TransactionStatus.Succeeded ->
  checkPayment (S fuel) xrpClient txHash numRetries index l
  = Some (Return tt, polled txHash 1 l).
Proof.
  intros Hreply. cbn [checkPayment]. unfold getPaymentStatus.
  rewrite Hreply. reflexivity.
Qed.

Lemma checkPayment_client_throws fuel numRetries index l e :
  statusReply xrpClient (polls l) txHash = Throw e ->
  checkPayment (S fuel) xrpClient txHash numRetries index l
  = Some (Throw e, polled txHash 1 l).
Proof.
  intros Hreply. cbn [checkPayment]. unfold getPaymentStatus.
  rewrite Hreply. reflexivity.
Qed.

Lemma checkPayment_pending_at_limit fuel numRetries index l :
  statusReply xrpClient (polls l) txHash = Return TransactionStatus.Pending ->
  withDefault retryLimit numRetries <= withDefault 0 index ->
  checkPayment (S fuel) xrpClient txHash numRetries index l
  = Some (Throw (RetryLimitReached (withDefault retryLimit numRetries)),
          polled txHash 1 l).
Proof.
  intros Hreply Hlimit. cbn [checkPayment]. unfold getPaymentStatus.
  rewrite Hreply.
  destruct (Z.geb_spec (withDefault 0 index) (withDefault retryLimit numRetries));
    [reflexivity | lia].
Qed.

Lemma checkPayment_pending_below_limit fuel numRetries index l :
  statusReply xrpClient (polls l) txHash = Return TransactionStatus.Pending ->
  withDefault 0 index < withDefault retryLimit numRetries ->
  checkPayment (S fuel) xrpClient txHash numRetries index l
  = checkPayment fuel xrpClient txHash
      (Some (withDefault 0 index + 1)) (Some retryLimit) (polled txHash 1 l).
Proof.
  intros Hreply Hlimit. cbn [checkPayment]. unfold getPaymentStatus.
  rewrite Hreply.
  destruct (Z.geb_spec (withDefault 0 index) (withDefault retryLimit numRetries));
    [lia | reflexivity].
Qed.

Lemma checkPayment_rejected_step fuel numRetries index l txStatus :
  statusReply xrpClient (polls l) txHash = Return txStatus ->
  txStatus = TransactionStatus.Failed \/ txStatus = TransactionStatus.Unknown ->
  checkPayment (S fuel) xrpClient txHash numRetries index l
  = Some (Throw TransactionFailed, polled txHash 1 l).
Proof.
  intros Hreply Hstatus. cbn [checkPayment]. unfold getPaymentStatus.
  rewrite Hreply. destruct Hstatus; subst txStatus; reflexivity.
Qed.

(** An invocation whose [index] has reached [numRetries] polls once and
    never recurses. *)
Lemma checkPayment_last_invocation fuel numRetries index l :
  withDefault retryLimit numRetries <= withDefault 0 index ->
  exists c, checkPayment (S fuel) xrpClient txHash numRetries index l
            = Some (c, polled txHash 1 l).
Proof.
  intros Hlimit.
  destruct (statusReply xrpClient (polls l) txHash) as [[ | | | ]|e] eqn:Hreply.
  - eexists. eapply checkPayment_rejected_step; eauto.
  - eexists. apply checkPayment_pending_at_limit; assumption.
  - eexists. apply checkPayment_succeeded; assumption.
  - eexists. eapply checkPayment_rejected_step; eauto.
  - eexists. eapply checkPayment_client_throws; eassumption.
Qed.

(** A result does not depend on the fuel that was left over. *)
Lemma checkPayment_more_fuel fuel more :
  forall numRetries index l r,
    checkPayment fuel xrpClient txHash numRetries index l = Some r ->
    checkPayment (fuel + more) xrpClient txHash numRetries index l = Some r.
Proof.
  induction fuel as [|fuel IH]; intros numRetries index l r; [discriminate|].
  cbn [checkPayment Nat.add].
  destruct (getPaymentStatus xrpClient txHash l) as [[txStatus|e] l1];
    [|trivial].
  destruct txStatus; trivial.
  destruct (withDefault 0 index >=? withDefault retryLimit numRetries);
    [trivial | apply IH].
Qed.

(** ** How far the recursion goes *)

(** After a first [Pending] below the limit, the second invocation runs
    with [numRetries = 1] and [index = retryLimit]: with a retry limit of
    at least one it is a last invocation. *)
Lemma checkPayment_second_invocation fuel numRetries l :
  1 <= retryLimit ->
  statusReply xrpClient (polls l) txHash = Return TransactionStatus.Pending ->
  0 < withDefault retryLimit numRetries ->
  exists c, checkPayment (S (S fuel)) xrpClient txHash numRetries None l
            = Some (c, polled txHash 2 l)
            /\ checkPayment (S fuel) xrpClient txHash
                 (Some 1) (Some retryLimit) (polled txHash 1 l)
               = Some (c, polled txHash 2 l).
Proof.
  intros Hlimit Hreply Hpositive.
  destruct (checkPayment_last_invocation fuel (Some 1) (Some retryLimit)
              (polled txHash 1 l)) as [c Hc]; [exact Hlimit|].
  exists c. split; [|exact Hc].
  rewrite checkPayment_pending_below_limit by assumption.
  exact Hc.
Qed.

(** With the retry limit of the configuration as [numRetries], two units of
    fuel are enough whatever the network answers. *)
Lemma checkPayment_default_returns extra l :
  exists r, checkPayment (2 + extra) xrpClient txHash (Some retryLimit) None l
            = Some r.
Proof.
  destruct (statusReply xrpClient (polls l) txHash) as [txStatus|e] eqn:Hreply.
  - destruct (Z_le_gt_dec retryLimit 0) as [Hle|Hgt].
    + destruct (checkPayment_last_invocation (S extra) (Some retryLimit) None l)
        as [c Hc]; [exact Hle|]. eexists. exact Hc.
    + destruct txStatus.
      * eexists. eapply checkPayment_rejected_step; eauto.
      * destruct (checkPayment_second_invocation extra (Some retryLimit) l)
          as [c [Hc _]]; cbn [withDefault]; try lia; [assumption|].
        eexists. exact Hc.
      * eexists. apply checkPayment_succeeded; assumption.
      * eexists. eapply checkPayment_rejected_step; eauto.
  - eexists. eapply checkPayment_client_throws; eassumption.
Qed.

(** When the configured limit is not positive and a caller passes a
    positive [numRetries], a transaction that stays pending keeps the
    recursion going for ever: no amount of fuel gives a result. *)
Lemma checkPayment_pending_for_ever fuel :
  retryLimit <= 0 ->
  (forall n, statusReply xrpClient n txHash = Return TransactionStatus.Pending) ->
  forall numRetries index l,
    withDefault 0 index < withDefault retryLimit numRetries ->
    retryLimit <= withDefault 0 index ->
    checkPayment fuel xrpClient txHash numRetries index l = None.
Proof.
  intros Hlimit Hpending.
  induction fuel as [|fuel IH]; intros numRetries index l Hbelow Hindex;
    [reflexivity|].
  rewrite checkPayment_pending_below_limit by auto.
  apply IH; cbn [withDefault]; lia.
Qed.

(** Two pending answers in a row end the watch with the message of a retry
    limit of 1, whatever limit was configured (the general form of the
    evaluations for C1 and C2 below). *)
Lemma checkPayment_second_pending_times_out extra numRetries l :
  1 <= retryLimit ->
  0 < withDefault retryLimit numRetries ->
  statusReply xrpClient (polls l) txHash = Return TransactionStatus.Pending ->
  statusReply xrpClient (S (polls l)) txHash = Return TransactionStatus.Pending ->
  checkPayment (2 + extra) xrpClient txHash numRetries None l
  = Some (Throw (RetryLimitReached 1), polled txHash 2 l).
Proof.
  intros Hlimit Hpositive Hfirst Hsecond.
  cbn [Nat.add].
  rewrite checkPayment_pending_below_limit by assumption.
  rewrite checkPayment_pending_at_limit; [reflexivity | | exact Hlimit].
  rewrite polls_polled. exact Hsecond.
Qed.

(** One pending answer and then success: confirmed after two queries. *)
Lemma checkPayment_confirms_after_one_pending extra numRetries l :
  0 < withDefault retryLimit numRetries ->
  statusReply xrpClient (polls l) txHash = Return TransactionStatus.Pending ->
  statusReply xrpClient (S (polls l)) txHash = Return TransactionStatus.Succeeded ->
  checkPayment (2 + extra) xrpClient txHash numRetries None l
  = Some (Return tt, polled txHash 2 l).
Proof.
  intros Hpositive Hfirst Hsecond.
  cbn [Nat.add].
  rewrite checkPayment_pending_below_limit by assumption.
  rewrite checkPayment_succeeded; [reflexivity|].
  rewrite polls_polled. exact Hsecond.
Qed.

(** C5: whenever the status query of an invocation of [checkPayment]
    answers [Failed] or [Unknown], that invocation throws
    ['Transaction failed.'] at once: the ledger has seen exactly this one
    query more, nothing was sent, and no recursive call was made (one unit
    of fuel is enough, for every [numRetries] and [index]). *)
Theorem checkPayment_rejected_immediately fuel numRetries index l txStatus :
  statusReply xrpClient (polls l) txHash = Return txStatus ->
  txStatus = TransactionStatus.Failed \/ txStatus = TransactionStatus.Unknown ->
  checkPayment (S fuel) xrpClient txHash numRetries index l
  = Some (Throw TransactionFailed, recordQuery txHash l)
  /\ polls (recordQuery txHash l) = S (polls l)
  /\ sent (recordQuery txHash l) = sent l.
Proof.
  intros Hreply Hstatus. split; [|split; reflexivity].
  rewrite (checkPayment_rejected_step fuel numRetries index l txStatus Hreply Hstatus).
  reflexivity.
Qed.

(** C6: with a retry limit of 0 ([numRetries] given as 0, or left to a
    configured [retryLimit] of 0) and the default [index], [checkPayment]
    makes exactly one status query and no recursive call; its completion is
    decided by that one answer, and [Pending] gives the retry-limit error. *)
Theorem checkPayment_zero_limit_polls_once fuel numRetries l :
  withDefault retryLimit numRetries = 0 ->
  checkPayment (S fuel) xrpClient txHash numRetries None l
  = Some (match statusReply xrpClient (polls l) txHash with
          | Return TransactionStatus.Succeeded => Return tt
          | Return TransactionStatus.Pending => Throw (RetryLimitReached 0)
          | Return TransactionStatus.Failed
          | Return TransactionStatus.Unknown => Throw TransactionFailed
          | Throw e => Throw e
          end, recordQuery txHash l)
  /\ polls (recordQuery txHash l) = S (polls l).
Proof.
  intros Hzero. split; [|reflexivity].
  destruct (statusReply xrpClient (polls l) txHash) as [[ | | | ]|e] eqn:Hreply.
  - eapply checkPayment_rejected_step; eauto.
  - rewrite checkPayment_pending_at_limit; cbn [withDefault];
      [rewrite Hzero; reflexivity | assumption | lia].
  - apply checkPayment_succeeded; assumption.
  - eapply checkPayment_rejected_step; eauto.
  - apply checkPayment_client_throws; assumption.
Qed.

(** C9: called with the default [index], and with [numRetries] equal to the
    configured [retryLimit] (its default) or with any [numRetries] under a
    configured limit of at least one, [checkPayment] gives a result with two
    units of fuel, that is within two invocations, and the ledger has then
    seen one or two status queries and nothing else: the recursive call of
    line 166 runs with [numRetries = index + 1] and [index = retryLimit] and
    is a last invocation. *)
Theorem checkPayment_at_most_two_queries extra numRetries l :
  withDefault retryLimit numRetries = retryLimit \/ 1 <= retryLimit ->
  exists c k,
    checkPayment (2 + extra) xrpClient txHash numRetries None l
    = Some (c, polled txHash k l)
    /\ (1 <= k <= 2)%nat
    /\ polls (polled txHash k l) = (k + polls l)%nat
    /\ sent (polled txHash k l) = sent l.
Proof.
  intros Hconfig.
  assert (Hone : forall c, checkPayment (2 + extra) xrpClient txHash numRetries None l
                           = Some (c, polled txHash 1 l) ->
                 exists c k, checkPayment (2 + extra) xrpClient txHash numRetries None l
                             = Some (c, polled txHash k l)
                             /\ (1 <= k <= 2)%nat
                             /\ polls (polled txHash k l) = (k + polls l)%nat
                             /\ sent (polled txHash k l) = sent l).
  { intros c Hc. exists c, 1%nat. split; [exact Hc|]. split; [lia|].
    split; [apply polls_polled | apply sent_polled]. }
  destruct (statusReply xrpClient (polls l) txHash) as [txStatus|e] eqn:Hreply.
  - destruct txStatus.
    + eapply Hone, checkPayment_rejected_step; eauto.
    + destruct (Z_le_gt_dec (withDefault retryLimit numRetries) 0) as [Hle|Hgt].
      * eapply Hone, checkPayment_pending_at_limit; [assumption|exact Hle].
      * assert (Hlimit : 1 <= retryLimit) by lia.
        destruct (checkPayment_second_invocation extra numRetries l)
          as [c [Hc _]]; [assumption | assumption | lia |].
        exists c, 2%nat. split; [exact Hc|]. split; [lia|].
        split; [apply polls_polled | apply sent_polled].
    + eapply Hone, checkPayment_succeeded; assumption.
    + eapply Hone, checkPayment_rejected_step; eauto.
  - eapply Hone, checkPayment_client_throws; eassumption.
Qed.

End WatcherFacts.

Section SubmitterFacts.

Context {lib : XpringJs} {cfg : Config}.

Variable senderWallet : Wallet.
Variable xrpClient : XrpClient.
Variable receiverAccount : TxInput.
Variable usdToXrpRate : float.

(** [submitPayment] path by path: the two conversions, then the one call
    of [send]. *)
Lemma submitPayment_paths (l : Ledger) :
  submitPayment senderWallet xrpClient receiverAccount usdToXrpRate l
  = match encodeXAddress (address receiverAccount)
            (destinationTag receiverAccount) with
    | Throw e => (Throw e, l)
    | Return destinationXAddress =>
        match xrpToDrops (usdAmount receiverAccount / usdToXrpRate)%float with
        | Throw e => (Throw e, l)
        | Return dropDestinationAmount =>
            (sendReply xrpClient (sends l) dropDestinationAmount
               destinationXAddress senderWallet,
             recordSend {| paidDrops := dropDestinationAmount;
                           paidTo := destinationXAddress;
                           paidFrom := senderWallet |} l)
        end
    end.
Proof.
  unfold submitPayment, bind, call, send, ret.
  destruct (encodeXAddress _ _) as [destinationXAddress|e]; [|reflexivity].
  destruct (xrpToDrops _) as [dropDestinationAmount|e]; [|reflexivity].
  destruct (sendReply _ _ _ _ _); reflexivity.
Qed.

(** C4, as amended: once the address and the amount are converted, the
    completion of [submitPayment] is the completion of the one call of
    [send]: an error that [send] raises is thrown on to the caller of
    [submitPayment] unchanged, and a transaction hash that [send] returns is
    returned. *)
Theorem submitPayment_completes_as_send l destinationXAddress dropDestinationAmount :
  encodeXAddress (address receiverAccount) (destinationTag receiverAccount)
  = Return destinationXAddress ->
  xrpToDrops (usdAmount receiverAccount / usdToXrpRate)%float = Return dropDestinationAmount ->
  let reply := sendReply xrpClient (sends l) dropDestinationAmount
                 destinationXAddress senderWallet in
  let run := submitPayment senderWallet xrpClient receiverAccount usdToXrpRate l in
  fst run = reply
  /\ (forall e, reply = Throw e -> fst run = Throw e /\ isReturn (fst run) = false)
  /\ (forall txHash, reply = Return txHash -> fst run = Return txHash).
Proof.
  intros Hencode Hdrops reply run.
  assert (Hrun : fst run = reply).
  { subst run. rewrite submitPayment_paths, Hencode, Hdrops. reflexivity. }
  split; [exact Hrun|]. split.
  - intros e He. rewrite Hrun, He. split; reflexivity.
  - intros txHash Htx. rewrite Hrun, Htx. reflexivity.
Qed.

(** C7: a call of [submitPayment] leaves the log of status queries as it
    was and adds at most one call of [send] to the ledger; when it returns
    a transaction hash it has added exactly one, the payment of the
    converted amount to the encoded address from the sender's wallet; and
    whenever both conversions succeed it has added exactly that one,
    whether [send] then returns or throws. *)
Theorem submitPayment_sends_once l :
  let run := submitPayment senderWallet xrpClient receiverAccount usdToXrpRate l in
  queried (snd run) = queried l
  /\ (snd run = l \/ exists p, snd run = recordSend p l)
  /\ (sends l <= sends (snd run) <= 1 + sends l)%nat
  /\ (forall txHash, fst run = Return txHash ->
      exists destinationXAddress dropDestinationAmount,
        encodeXAddress (address receiverAccount) (destinationTag receiverAccount)
        = Return destinationXAddress
        /\ xrpToDrops (usdAmount receiverAccount / usdToXrpRate)%float = Return dropDestinationAmount
        /\ snd run = recordSend {| paidDrops := dropDestinationAmount;
                                   paidTo := destinationXAddress;
                                   paidFrom := senderWallet |} l
        /\ sends (snd run) = S (sends l))
  /\ (forall destinationXAddress dropDestinationAmount,
        encodeXAddress (address receiverAccount) (destinationTag receiverAccount)
        = Return destinationXAddress ->
        xrpToDrops (usdAmount receiverAccount / usdToXrpRate)%float = Return dropDestinationAmount ->
        sends (snd run) = S (sends l)).
Proof.
  intros run. subst run. rewrite submitPayment_paths.
  destruct (encodeXAddress _ _) as [destinationXAddress|e] eqn:Hencode.
  2:{ cbn. repeat split; auto; try lia; intros; discriminate. }
  destruct (xrpToDrops _) as [dropDestinationAmount|e] eqn:Hdrops.
  2:{ cbn. repeat split; auto; try lia; intros; discriminate. }
  cbn [fst snd]. split; [reflexivity|]. split; [right; eexists; reflexivity|].
  split; [unfold sends; cbn; lia|]. split.
  - intros txHash _. exists destinationXAddress, dropDestinationAmount.
    repeat split; reflexivity.
  - intros; reflexivity.
Qed.

End SubmitterFacts.

Section WalletFacts.

Context {lib : XpringJs}.

(** C10: when [generateWallet] returns, the wallet it returns is present
    (it is the one the factory made), the X-address derived from it passes
    [isValidXAddress], and the classic address it returns, decoded from that
    X-address, passes [isValidClassicAddress]; in every other case the
    completion is a thrown error. *)
Theorem generateWallet_returns_valid secret network wallet classicAddress :
  generateWallet secret network = Return (wallet, classicAddress) ->
  exists w decoded,
    wallet = Some w
    /\ walletFromSeed network secret = Return (Some w)
    /\ decodeXAddress (Some (getAddress w)) = Return decoded
    /\ classicAddress = option_map decodedAddress decoded
    /\ isValidXAddress (Some (getAddress w)) = true
    /\ isValidClassicAddress classicAddress = true.
Proof.
  unfold generateWallet.
  destruct (walletFromSeed network secret) as [made|e]; [|discriminate].
  destruct (decodeXAddress (option_map getAddress made)) as [decoded|e] eqn:Hdecode;
    [|discriminate].
  destruct made as [w|]; cbn [isDefined negb orb option_map] in *; [|discriminate].
  destruct (isValidXAddress (Some (getAddress w))) eqn:Hx;
    cbn [negb orb]; [|discriminate].
  destruct (isValidClassicAddress (option_map decodedAddress decoded)) eqn:Hclassic;
    cbn [negb]; [|discriminate].
  intros Hret. injection Hret as <- <-.
  exists w, decoded. repeat split; assumption.
Qed.

(** The other half: [generateWallet] throws as soon as the factory gives no
    wallet or a validity check fails. *)
Lemma generateWallet_throws_unless_valid secret network made decoded :
  walletFromSeed network secret = Return made ->
  decodeXAddress (option_map getAddress made) = Return decoded ->
  isDefined made
  && isValidXAddress (option_map getAddress made)
  && isValidClassicAddress (option_map decodedAddress decoded) = false ->
  generateWallet secret network = Throw WalletGenerationFailed.
Proof.
  intros Hmade Hdecoded Hinvalid. unfold generateWallet.
  rewrite Hmade, Hdecoded.
  destruct (isDefined made), (isValidXAddress _), (isValidClassicAddress _);
    cbn in *; congruence.
Qed.

End WalletFacts.

Section BatchFacts.

Context {lib : XpringJs} {cfg : Config}.

Variable wallet : Wallet.
Variable xrpNetworkClient : XrpClient.
Variable usdToXrpRate : float.



Section Reachable.

(** The ledger session answers every status query. *)
Hypothesis reachable :
  forall n txHash, exists txStatus,
    statusReply xrpNetworkClient n txHash = Return txStatus.





End Reachable.

(** A fatal exception of the watcher ends the batch with the records of
    the prior recipients, in order, and nothing for the recipient it met or
    the later ones. *)
Lemma reliableBatchPayment_fatal_keeps_prior fuel numRetries txInputs :
  forall l records fatal l',
    reliableBatchPayment fuel txInputs wallet xrpNetworkClient usdToXrpRate
      numRetries l = Some (records, Some fatal, l') ->
    exists after,
      txInputs = map fst records ++ after /\ after <> [].
Proof.
  induction txInputs as [|txInput rest IH]; intros l records fatal l' Hrun;
    cbn [reliableBatchPayment] in Hrun; [discriminate|].
  destruct (payRecipient _ _ _ _ _ _ _) as [[[outcome|e] l1]|];
    [|injection Hrun as <- _ _; exists (txInput :: rest);
      split; [reflexivity|discriminate]
     |discriminate].
  destruct (reliableBatchPayment fuel rest _ _ _ _ l1)
    as [[[tail ended] l2]|] eqn:Hrest; [|discriminate].
  injection Hrun as <- -> _.
  destruct (IH _ _ _ _ Hrest) as (after & -> & Hafter).
  exists after. split; [reflexivity|exact Hafter].
Qed.

End BatchFacts.

(** * Evaluations on the fixtures *)

(** The quotient of line 112 for 10.00 USD at 0.50 USD per XRP is the
    binary64 number 20, with no rounding error. *)
Lemma native_amount_of_10_usd_at_half :
  (10 / 0.5)%float = 20%float.
Proof. vm_compute. reflexivity. Qed.

(** With that quotient the fixture sends the converted amount once. *)
Lemma submitPayment_10_usd_at_half :
  @submitPayment fixtureLib fixtureWallet
    (scriptedClient [Return "T1"%string] [] TransactionStatus.Succeeded)
    (recipient "alice" 10) 0.5%float emptyLedger
  = (Return "T1"%string,
     recordSend (fixturePayment "20000000" (Some "Xralice"%string)) emptyLedger).
Proof. vm_compute. reflexivity. Qed.

(** C1 (evaluation): configured limit 3, statuses [Pending], [Pending],
    [Succeeded], so k = 2 < 3.  [checkPayment] called with its defaults
    throws the retry-limit error, naming a limit of 1, after two queries;
    the third answer is never asked for. *)
Theorem checkPayment_two_pending_then_succeeded extra :
  @checkPayment fixtureLib config3 (2 + extra)
    (scriptedClient []
       [TransactionStatus.Pending; TransactionStatus.Pending;
        TransactionStatus.Succeeded] TransactionStatus.Succeeded)
    "T1"%string None None emptyLedger
  = Some (Throw (RetryLimitReached 1), polled "T1"%string 2 emptyLedger).
Proof.
  apply (@checkPayment_second_pending_times_out fixtureLib config3);
    cbn; first [lia | reflexivity].
Qed.

(** C2 (evaluation): configured limit 3, every status [Pending].
    [checkPayment] called with its defaults throws the retry-limit error
    after two queries, that is after one retry, and the error names a limit
    of 1, not 3. *)
Theorem checkPayment_always_pending_limit_3 extra :
  @checkPayment fixtureLib config3 (2 + extra)
    pendingClient
    "T1"%string None None emptyLedger
  = Some (Throw (RetryLimitReached 1), polled "T1"%string 2 emptyLedger)
  /\ polls (polled "T1"%string 2 emptyLedger) = 2%nat.
Proof.
  split; [|reflexivity].
  apply (@checkPayment_second_pending_times_out fixtureLib config3);
    cbn; first [lia | reflexivity].
Qed.

(** With a configured limit of 0 and [numRetries] passed as 1, the same
    ever-pending transaction keeps [checkPayment] recursing for ever. *)
Lemma checkPayment_limit_0_never_ends fuel :
  @checkPayment fixtureLib config0 fuel
    pendingClient
    "T1"%string (Some 1) None emptyLedger
  = None.
Proof.
  apply (@checkPayment_pending_for_ever fixtureLib config0);
    cbn; try lia. intros n. destruct n as [|[|n]]; reflexivity.
Qed.

(** The end-to-end scenario of the specification: three recipients, the
    submission of the second fails; the batch records [Confirmed],
    [Failed], [Confirmed] and ends without a fatal exception. *)
Lemma payoutBatch_isolates_failed_submission :
  option_map (fun r => (map snd (fst (fst r)), snd (fst r)))
    (@payoutBatch fixtureLib config3 2
       [recipient "alice" 10; recipient "bob" 10; recipient "carol" 10]
       fixtureWallet
       (scriptedClient
          [Return "T1"%string; Throw (LibraryError "send: rejected");
           Return "T3"%string] [] TransactionStatus.Succeeded)
       0.5%float emptyLedger)
  = Some ([Confirmed "T1"; Failed (LibraryError "send: rejected");
           Confirmed "T3"], None).
Proof. vm_compute. reflexivity. Qed.


(** C4 (counterexample): the network refuses the submission; the call of
    [submitPayment] does not return a value, it throws the error of [send]. *)
Lemma submitPayment_send_error_is_thrown :
  sendReply rejectingClient 0 "20000000" (Some "Xralice"%string) fixtureWallet
  = Throw (LibraryError "send: rejected")
  /\ fst (submitPayment fixtureWallet rejectingClient (recipient "alice" 10)
            0.5%float emptyLedger)
     = Throw (LibraryError "send: rejected")
  /\ isReturn (fst (submitPayment fixtureWallet rejectingClient
                      (recipient "alice" 10) 0.5%float emptyLedger))
     = false
  /\ (forall txHash,
        fst (submitPayment fixtureWallet rejectingClient (recipient "alice" 10)
               0.5%float emptyLedger)
        <> Return txHash).
Proof.
  assert (Hrun : fst (submitPayment fixtureWallet rejectingClient
                        (recipient "alice" 10) 0.5%float emptyLedger)
                 = Throw (LibraryError "send: rejected"))
    by (vm_compute; reflexivity).
  split; [reflexivity|]. split; [exact Hrun|]. rewrite Hrun.
  split; [reflexivity | intros txHash; discriminate].
Qed.

(** * Witnesses *)

Lemma submitPayment_completes_as_send_witness :
  fst (submitPayment fixtureWallet rejectingClient (recipient "alice" 10)
         0.5%float emptyLedger)
  = sendReply rejectingClient 0 "20000000" (Some "Xralice"%string) fixtureWallet.
Proof.
  exact (proj1
           (submitPayment_completes_as_send (lib := fixtureLib) fixtureWallet
              rejectingClient (recipient "alice" 10) 0.5%float emptyLedger
              (Some "Xralice"%string) "20000000"%string eq_refl eq_refl)).
Defined.

Lemma submitPayment_sends_once_witness :
  sends (snd (submitPayment fixtureWallet rejectingClient (recipient "alice" 10)
                0.5%float emptyLedger)) = 1%nat.
Proof.
  apply (submitPayment_sends_once (lib := fixtureLib) fixtureWallet
           rejectingClient (recipient "alice" 10) 0.5%float emptyLedger)
    with (destinationXAddress := Some "Xralice"%string)
         (dropDestinationAmount := "20000000"%string);
    reflexivity.
Defined.

Lemma checkPayment_rejected_immediately_witness :
  @checkPayment fixtureLib config3 1 unknownClient "T1"%string
    (Some 3) (Some 0) emptyLedger
  = Some (Throw TransactionFailed, recordQuery "T1"%string emptyLedger)
  /\ polls (recordQuery "T1"%string emptyLedger) = 1%nat
  /\ sent (recordQuery "T1"%string emptyLedger) = [].
Proof.
  apply (@checkPayment_rejected_immediately fixtureLib config3 unknownClient
           "T1"%string 0 (Some 3) (Some 0) emptyLedger
           TransactionStatus.Unknown);
    [reflexivity | right; reflexivity].
Defined.

Lemma checkPayment_zero_limit_polls_once_witness :
  @checkPayment fixtureLib config3 1 pendingClient "T1"%string
    (Some 0) None emptyLedger
  = Some (Throw (RetryLimitReached 0), recordQuery "T1"%string emptyLedger)
  /\ polls (recordQuery "T1"%string emptyLedger) = 1%nat.
Proof.
  apply (@checkPayment_zero_limit_polls_once fixtureLib config3 pendingClient
           "T1"%string 0 (Some 0) emptyLedger).
  reflexivity.
Defined.

Lemma checkPayment_at_most_two_queries_witness :
  exists c k,
    @checkPayment fixtureLib config3 2 pendingClient "T1"%string None None
      emptyLedger
    = Some (c, polled "T1"%string k emptyLedger)
    /\ (1 <= k <= 2)%nat
    /\ polls (polled "T1"%string k emptyLedger) = (k + 0)%nat
    /\ sent (polled "T1"%string k emptyLedger) = [].
Proof.
  apply (@checkPayment_at_most_two_queries fixtureLib config3 pendingClient
           "T1"%string 0 None emptyLedger).
  left. reflexivity.
Defined.

Lemma generateWallet_returns_valid_witness :
  exists w decoded,
    Some "Xseed"%string = Some w
    /\ @walletFromSeed fixtureLib Test "seed" = Return (Some w)
    /\ @decodeXAddress fixtureLib (Some (@getAddress fixtureLib w))
       = Return decoded
    /\ Some "rXseed"%string = option_map decodedAddress decoded
    /\ @isValidXAddress fixtureLib (Some (@getAddress fixtureLib w)) = true
    /\ @isValidClassicAddress fixtureLib (Some "rXseed"%string) = true.
Proof.
  apply (@generateWallet_returns_valid fixtureLib "seed"%string Test
           (Some "Xseed"%string) (Some "rXseed"%string)).
  reflexivity.
Defined.

(** * Further properties of the watcher *)

Section WatcherFrame.

Context {lib : XpringJs} {cfg : Config}.

Variable xrpClient : XrpClient.
Variable txHash : string.

Lemma polled_recordQuery (k : nat) (l : Ledger) :
  polled txHash k (recordQuery txHash l) = polled txHash (S k) l.
Proof.
  induction k as [|k IH]; [reflexivity|].
  rewrite (polled_S txHash (S k)), <- IH. reflexivity.
Qed.

Lemma queried_polled (k : nat) (l : Ledger) :
  queried (polled txHash k l) = repeat txHash k ++ queried l.
Proof.
  induction k as [|k IH]; [reflexivity|].
  rewrite polled_S. cbn [recordQuery queried repeat app]. rewrite IH.
  reflexivity.
Qed.

(** X1: whatever [checkPayment] completes with, all it has done to the
    ledger is to query the status of [txHash], at least once and at most
    once per invocation: it never calls [send] and never asks about another
    transaction. *)
Theorem checkPayment_only_polls fuel :
  forall numRetries index l c l',
    checkPayment fuel xrpClient txHash numRetries index l = Some (c, l') ->
    exists k,
      l' = polled txHash k l
      /\ (1 <= k <= fuel)%nat
      /\ sent l' = sent l
      /\ queried l' = repeat txHash k ++ queried l.
Proof.
  assert (Hone : forall l l' : Ledger, forall n,
             l' = polled txHash 1 l ->
             exists k, l' = polled txHash k l /\ (1 <= k <= S n)%nat
                       /\ sent l' = sent l
                       /\ queried l' = repeat txHash k ++ queried l).
  { intros l l' n ->. exists 1%nat. repeat split; lia. }
  induction fuel as [|fuel IH]; intros numRetries index l c l' Hrun;
    [discriminate|].
  destruct (statusReply xrpClient (polls l) txHash) as [txStatus|e] eqn:Hreply.
  - destruct txStatus.
    + rewrite (checkPayment_rejected_step xrpClient txHash fuel numRetries
                 index l _ Hreply (or_introl eq_refl)) in Hrun.
      injection Hrun as _ <-. apply Hone. reflexivity.
    + destruct (Z_le_gt_dec (withDefault retryLimit numRetries)
                  (withDefault 0 index)) as [Hle|Hgt].
      * rewrite checkPayment_pending_at_limit in Hrun by assumption.
        injection Hrun as _ <-. apply Hone. reflexivity.
      * rewrite checkPayment_pending_below_limit in Hrun by (assumption || lia).
        destruct (IH _ _ _ _ _ Hrun) as (k & -> & Hk & Hsent & Hqueried).
        assert (Hshift : polled txHash k (polled txHash 1 l)
                         = polled txHash (S k) l)
          by apply polled_recordQuery.
        exists (S k). rewrite Hshift. split; [reflexivity|].
        split; [lia|]. split; [apply sent_polled | apply queried_polled].
    + rewrite checkPayment_succeeded in Hrun by assumption.
      injection Hrun as _ <-. apply Hone. reflexivity.
    + rewrite (checkPayment_rejected_step xrpClient txHash fuel numRetries
                 index l _ Hreply (or_intror eq_refl)) in Hrun.
      injection Hrun as _ <-. apply Hone. reflexivity.
  - rewrite (checkPayment_client_throws xrpClient txHash fuel numRetries
               index l e Hreply) in Hrun.
    injection Hrun as _ <-. apply Hone. reflexivity.
Qed.

(** X2: an exception of [getPaymentStatus] is not retried: the invocation
    that meets it throws it on unchanged, be it the first invocation or the
    one retry after a pending answer. *)
Theorem checkPayment_rethrows_client_error fuel numRetries index l e :
  (statusReply xrpClient (polls l) txHash = Throw e ->
   checkPayment (S fuel) xrpClient txHash numRetries index l
   = Some (Throw e, polled txHash 1 l))
  /\ (statusReply xrpClient (polls l) txHash = Return TransactionStatus.Pending ->
      withDefault 0 index < withDefault retryLimit numRetries ->
      statusReply xrpClient (S (polls l)) txHash = Throw e ->
      checkPayment (S (S fuel)) xrpClient txHash numRetries index l
      = Some (Throw e, polled txHash 2 l)).
Proof.
  split.
  - apply checkPayment_client_throws.
  - intros Hfirst Hbelow Hsecond.
    rewrite checkPayment_pending_below_limit by assumption.
    rewrite (checkPayment_client_throws xrpClient txHash fuel _ _ _ e);
      [reflexivity|].
    rewrite polls_polled. exact Hsecond.
Qed.

(** X3: the value of [numRetries] does not matter beyond being above
    [index]: any two such values give the same completion after the same
    queries, because the recursive call of line 166 forgets it. *)
Theorem checkPayment_numRetries_forgotten fuel numRetries numRetries' index l :
  withDefault 0 index < numRetries ->
  withDefault 0 index < numRetries' ->
  checkPayment fuel xrpClient txHash (Some numRetries) index l
  = checkPayment fuel xrpClient txHash (Some numRetries') index l.
Proof.
  intros Hbelow Hbelow'.
  destruct fuel as [|fuel]; [reflexivity|].
  destruct (statusReply xrpClient (polls l) txHash) as [txStatus|e] eqn:Hreply.
  - destruct txStatus.
    + rewrite !(checkPayment_rejected_step xrpClient txHash fuel _ index l _
                  Hreply (or_introl eq_refl)). reflexivity.
    + rewrite !checkPayment_pending_below_limit by assumption. reflexivity.
    + rewrite !checkPayment_succeeded by assumption. reflexivity.
    + rewrite !(checkPayment_rejected_step xrpClient txHash fuel _ index l _
                  Hreply (or_intror eq_refl)). reflexivity.
  - rewrite !(checkPayment_client_throws xrpClient txHash fuel _ index l e Hreply).
    reflexivity.
Qed.

(** X4: with a configured [retryLimit] of at most 0, a call that passes a
    positive [numRetries] and leaves [index] to its default never completes
    on a transaction that stays pending: every invocation recurses. *)
Theorem checkPayment_never_completes fuel numRetries l :
  retryLimit <= 0 ->
  0 < numRetries ->
  (forall n, statusReply xrpClient n txHash = Return TransactionStatus.Pending) ->
  checkPayment fuel xrpClient txHash (Some numRetries) None l = None.
Proof.
  intros Hlimit Hpositive Hpending.
  apply checkPayment_pending_for_ever; cbn [withDefault]; assumption.
Qed.

(** X5: with a configured [retryLimit] of at least 1 and a positive
    [numRetries], the completion of [checkPayment] is decided by the first
    answer and, when that is [Pending], by the second: success returns,
    [Failed] and [Unknown] throw ['Transaction failed.'], an exception is
    thrown on, and a second [Pending] throws the retry-limit error that
    names a limit of 1. *)
Theorem checkPayment_retries_once extra numRetries l :
  1 <= retryLimit ->
  0 < withDefault retryLimit numRetries ->
  let conclude (reply : Completion TransactionStatus.t) (limit : Z) :=
    match reply with
    | Return TransactionStatus.Succeeded => Return tt
    | Return TransactionStatus.Pending => Throw (RetryLimitReached limit)
    | Return TransactionStatus.Failed
    | Return TransactionStatus.Unknown => Throw TransactionFailed
    | Throw e => Throw e
    end in
  checkPayment (2 + extra) xrpClient txHash numRetries None l
  = match statusReply xrpClient (polls l) txHash with
    | Return TransactionStatus.Pending =>
        Some (conclude (statusReply xrpClient (S (polls l)) txHash) 1,
              polled txHash 2 l)
    | first => Some (conclude first 0, polled txHash 1 l)
    end.
Proof.
  intros Hlimit Hpositive conclude. cbn [Nat.add].
  destruct (statusReply xrpClient (polls l) txHash) as [[ | | | ]|e] eqn:Hfirst.
  - eapply checkPayment_rejected_step; eauto.
  - rewrite checkPayment_pending_below_limit by assumption.
    assert (Hat : polls (polled txHash 1 l) = S (polls l)) by reflexivity.
    destruct (statusReply xrpClient (S (polls l)) txHash) as [[ | | | ]|e]
      eqn:Hsecond; rewrite <- Hat in Hsecond.
    + eapply checkPayment_rejected_step; eauto.
    + rewrite checkPayment_pending_at_limit; [reflexivity|assumption|exact Hlimit].
    + apply checkPayment_succeeded; assumption.
    + eapply checkPayment_rejected_step; eauto.
    + apply checkPayment_client_throws; assumption.
  - apply checkPayment_succeeded; assumption.
  - eapply checkPayment_rejected_step; eauto.
  - apply checkPayment_client_throws; assumption.
Qed.

End WatcherFrame.

(** * Further properties of the submitter and of the wallet *)

Section SubmitterEdges.

Context {lib : XpringJs}.

Variable senderWallet : Wallet.
Variable xrpClient : XrpClient.
Variable receiverAccount : TxInput.
Variable usdToXrpRate : float.

(** X6: when the address cannot be encoded because [encodeXAddress]
    throws, or the quotient is an amount that [xrpToDrops] refuses,
    [submitPayment] throws that error and nothing is submitted: the ledger
    is as it was. *)
Theorem submitPayment_refused_before_send l e :
  encodeXAddress (address receiverAccount) (destinationTag receiverAccount)
  = Throw e
  \/ ((exists destinationXAddress,
         encodeXAddress (address receiverAccount)
           (destinationTag receiverAccount) = Return destinationXAddress)
      /\ xrpToDrops (usdAmount receiverAccount / usdToXrpRate)%float = Throw e) ->
  submitPayment senderWallet xrpClient receiverAccount usdToXrpRate l
  = (Throw e, l).
Proof.
  intros [Hencode | [[destinationXAddress Hencode] Hdrops]];
    rewrite submitPayment_paths, Hencode; [reflexivity|].
  rewrite Hdrops. reflexivity.
Qed.

(** X7: the result of [encodeXAddress] is not checked: when it is
    [undefined] the payment is still handed to [send], with no
    destination, and the completion is whatever [send] answers. *)
Theorem submitPayment_sends_to_undefined l dropDestinationAmount :
  encodeXAddress (address receiverAccount) (destinationTag receiverAccount)
  = Return None ->
  xrpToDrops (usdAmount receiverAccount / usdToXrpRate)%float
  = Return dropDestinationAmount ->
  submitPayment senderWallet xrpClient receiverAccount usdToXrpRate l
  = (sendReply xrpClient (sends l) dropDestinationAmount None senderWallet,
     recordSend {| paidDrops := dropDestinationAmount; paidTo := None;
                   paidFrom := senderWallet |} l).
Proof.
  intros Hencode Hdrops.
  rewrite submitPayment_paths, Hencode, Hdrops. reflexivity.
Qed.

End SubmitterEdges.

Section WalletEdges.

Context {lib : XpringJs}.

(** X8: [generateWallet] returns whenever the factory makes a wallet whose
    X-address is valid and decodes to a valid classic address, and what it
    returns is that wallet with that classic address. *)
Theorem generateWallet_accepts secret network w decoded :
  walletFromSeed network secret = Return (Some w) ->
  decodeXAddress (Some (getAddress w)) = Return decoded ->
  isValidXAddress (Some (getAddress w)) = true ->
  isValidClassicAddress (option_map decodedAddress decoded) = true ->
  generateWallet secret network
  = Return (Some w, option_map decodedAddress decoded).
Proof.
  intros Hmade Hdecoded Hx Hclassic. unfold generateWallet.
  rewrite Hmade. cbn [option_map]. rewrite Hdecoded, Hx, Hclassic.
  reflexivity.
Qed.

(** X9: when both library calls return, [generateWallet] throws
    ['Failed to generate wallet from secret.'] in each of the three bad
    cases: no wallet, an invalid X-address, an invalid classic address; and
    an exception of the factory or of [decodeXAddress] is thrown on
    unchanged, the latter even when there is no wallet. *)
Theorem generateWallet_fails_closed secret network :
  (forall made decoded,
     walletFromSeed network secret = Return made ->
     decodeXAddress (option_map getAddress made) = Return decoded ->
     made = None
     \/ isValidXAddress (option_map getAddress made) = false
     \/ isValidClassicAddress (option_map decodedAddress decoded) = false ->
     generateWallet secret network = Throw WalletGenerationFailed)
  /\ (forall e,
        walletFromSeed network secret = Throw e ->
        generateWallet secret network = Throw e)
  /\ (forall made e,
        walletFromSeed network secret = Return made ->
        decodeXAddress (option_map getAddress made) = Throw e ->
        generateWallet secret network = Throw e).
Proof.
  split; [|split].
  - intros made decoded Hmade Hdecoded Hbad.
    apply (generateWallet_throws_unless_valid secret network made decoded);
      try assumption.
    destruct Hbad as [-> | [Hx | Hclassic]].
    + reflexivity.
    + rewrite Hx. apply andb_false_iff. left. apply andb_false_r.
    + rewrite Hclassic. apply andb_false_r.
  - intros e Hmade. unfold generateWallet. rewrite Hmade. reflexivity.
  - intros made e Hmade Hdecoded. unfold generateWallet.
    rewrite Hmade, Hdecoded. reflexivity.
Qed.

End WalletEdges.

(** * Properties of [connectToLedger] *)

Section ConnectFacts.

Context {lib : XpringJs} {con : XpringConnect}.

Variable grpcUrl : string.
Variable network : XrplNetwork.
Variable classicAddress : option string.

(** [connectToLedger] path by path. *)
Lemma connectToLedger_paths (s : Session) :
  connectToLedger grpcUrl network classicAddress s
  = match xrpUtilsEncodeXAddress classicAddress 0 with
    | Throw e => (Throw e, s)
    | Return xAddress =>
        let s1 := {| ledger := ledger s;
                     balancesAsked := xAddress :: balancesAsked s |} in
        match balanceReply (newXrpClient grpcUrl network true)
                (List.length (balancesAsked s)) xAddress with
        | Throw e => (Throw e, s1)
        | Return drops =>
            match dropsToXrp drops with
            | Throw e => (Throw e, s1)
            | Return _ => (Return (newXrpClient grpcUrl network true), s1)
            end
        end
    end.
Proof.
  unfold connectToLedger, getBalance.
  destruct (xrpUtilsEncodeXAddress classicAddress 0); [|reflexivity].
  destruct (balanceReply _ _ _); reflexivity.
Qed.

Lemma connectToLedger_keeps_ledger (s : Session) :
  ledger (snd (connectToLedger grpcUrl network classicAddress s)) = ledger s.
Proof.
  rewrite connectToLedger_paths.
  destruct (xrpUtilsEncodeXAddress classicAddress 0) as [xAddress|e];
    [|reflexivity].
  cbv zeta. destruct (balanceReply _ _ _) as [drops|e]; [|reflexivity].
  destruct (dropsToXrp drops); reflexivity.
Qed.

(** X10: [connectToLedger] returns a client exactly when the address was
    encoded, the node answered the balance query for it, and the balance
    could be converted to XRP; the client is then the one constructed for
    [grpcUrl] and [network] with the web transport switched on. *)
Theorem connectToLedger_returns_iff s xrpClient :
  fst (connectToLedger grpcUrl network classicAddress s) = Return xrpClient
  <-> xrpClient = newXrpClient grpcUrl network true
      /\ exists xAddress drops balance,
           xrpUtilsEncodeXAddress classicAddress 0 = Return xAddress
           /\ balanceReply (newXrpClient grpcUrl network true)
                (List.length (balancesAsked s)) xAddress = Return drops
           /\ dropsToXrp drops = Return balance.
Proof.
  rewrite connectToLedger_paths. split.
  - destruct (xrpUtilsEncodeXAddress classicAddress 0) as [xAddress|e];
      [|discriminate].
    cbv zeta.
    destruct (balanceReply _ _ _) as [drops|e] eqn:Hbalance; [|discriminate].
    destruct (dropsToXrp drops) as [balance|e] eqn:Hxrp; [|discriminate].
    cbn [fst]. intros Hret. injection Hret as <-.
    split; [reflexivity|]. exists xAddress, drops, balance. auto.
  - intros [-> (xAddress & drops & balance & -> & Hdrops & Hxrp)].
    cbv zeta. rewrite Hdrops, Hxrp. reflexivity.
Qed.

(** X11: [connectToLedger] submits nothing and asks for no payment status:
    the ledger is as it was.  It asks for at most one balance, that of the
    X-address encoded from [classicAddress] with tag 0, and for exactly that
    one whenever the encoding returns, also when it is [undefined]. *)
Theorem connectToLedger_asks_one_balance s :
  ledger (snd (connectToLedger grpcUrl network classicAddress s)) = ledger s
  /\ match xrpUtilsEncodeXAddress classicAddress 0 with
     | Return xAddress =>
         balancesAsked (snd (connectToLedger grpcUrl network classicAddress s))
         = xAddress :: balancesAsked s
     | Throw _ =>
         balancesAsked (snd (connectToLedger grpcUrl network classicAddress s))
         = balancesAsked s
     end.
Proof.
  rewrite connectToLedger_paths.
  destruct (xrpUtilsEncodeXAddress classicAddress 0) as [xAddress|e];
    [|split; reflexivity].
  cbv zeta. destruct (balanceReply _ _ _) as [drops|e]; [|split; reflexivity].
  destruct (dropsToXrp drops); split; reflexivity.
Qed.

(** X12: a failed balance query makes [connectToLedger] throw the error of
    the node, and so does a balance that [dropsToXrp] cannot convert,
    although the converted balance is only logged: no client is returned in
    either case. *)
Theorem connectToLedger_rethrows s xAddress e :
  xrpUtilsEncodeXAddress classicAddress 0 = Return xAddress ->
  balanceReply (newXrpClient grpcUrl network true)
    (List.length (balancesAsked s)) xAddress = Throw e
  \/ (exists drops,
        balanceReply (newXrpClient grpcUrl network true)
          (List.length (balancesAsked s)) xAddress = Return drops
        /\ dropsToXrp drops = Throw e) ->
  fst (connectToLedger grpcUrl network classicAddress s) = Throw e.
Proof.
  intros Hencode Hfail. rewrite connectToLedger_paths, Hencode. cbv zeta.
  destruct Hfail as [Hbalance | (drops & Hbalance & Hxrp)]; rewrite Hbalance;
    [reflexivity|].
  rewrite Hxrp. reflexivity.
Qed.

End ConnectFacts.

(** * Properties of [payout] *)

Section PayoutFacts.

Context {lib : XpringJs} {cfg : Config} {con : XpringConnect}
        {imports : PayoutImports}.

(** X13: [payout] never throws, and it never gets as far as a payment:
    every exception of its steps is caught, and a run that does connect
    ends at the array pattern of line 53.  Whatever the prompt, the
    parsers, the wallet factory and the node do, its completion is a normal
    return, nothing has been submitted, no payment status has been asked
    for, and the output stream of line 60 has not been created. *)
Theorem payout_never_throws override p :
  fst (payout override p) = Return tt
  /\ ledger (session (snd (payout override p))) = ledger (session p)
  /\ writeStreams (snd (payout override p)) = writeStreams p.
Proof.
  unfold payout, tryCatch, andThen, pure, inSession, raise, done.
  destruct (parseFromPromptToObject override) as [senderInput|e];
    [|repeat split].
  destruct (confirmed senderInput); cbn [negb]; [|repeat split].
  destruct (parseFromCsvToArray (inputCsv senderInput)) as [txInputs|e];
    [|repeat split].
  destruct (generateWallet (secret senderInput) (network senderInput))
    as [generated|e]; [|repeat split].
  pose proof (connectToLedger_keeps_ledger (grpcUrl senderInput)
                (network senderInput) (snd generated) (session p))
    as Hledger.
  destruct (connectToLedger _ _ _ _) as [[connected|e] s1];
    cbn [fst snd firstOfArray logError session writeStreams] in *;
    repeat split; exact Hledger.
Qed.

(** A run that connects logs the [TypeError] of line 53, after the one
    balance query of [connectToLedger]. *)
Lemma payout_ends_at_array_pattern override senderInput txInputs generated
    connected p :
  parseFromPromptToObject override = Return senderInput ->
  confirmed senderInput = true ->
  parseFromCsvToArray (inputCsv senderInput) = Return txInputs ->
  generateWallet (secret senderInput) (network senderInput) = Return generated ->
  fst (connectToLedger (grpcUrl senderInput) (network senderInput)
         (snd generated) (session p)) = Return connected ->
  payout override p
  = (Return tt,
     {| session := snd (connectToLedger (grpcUrl senderInput)
                          (network senderInput) (snd generated) (session p));
        writeStreams := writeStreams p;
        errorLog := notIterable :: errorLog p |}).
Proof.
  intros Hprompt Hconfirmed Hcsv Hwallet Hconnect.
  unfold payout, tryCatch, andThen, pure, inSession.
  rewrite Hprompt, Hconfirmed. cbn [negb done]. rewrite Hcsv, Hwallet.
  destruct (connectToLedger _ _ _ _) as [c s1]. cbn [fst snd] in *.
  subst c. reflexivity.
Qed.

(** X14: without the operator's confirmation nothing is done: no CSV row
    is used, no wallet is made, the node is not contacted, no output stream
    is created; the run logs ['XRP payout stopped.'] and returns. *)
Theorem payout_stops_unconfirmed override senderInput p :
  parseFromPromptToObject override = Return senderInput ->
  confirmed senderInput = false ->
  payout override p
  = (Return tt, {| session := session p; writeStreams := writeStreams p;
                   errorLog := payoutStopped :: errorLog p |}).
Proof.
  intros Hprompt Hconfirmed.
  unfold payout, tryCatch, andThen, pure. rewrite Hprompt, Hconfirmed.
  reflexivity.
Qed.

(** X15: the input file is parsed and the wallet is made before the node is
    contacted: when the CSV parser throws, or the rows parse and
    [generateWallet] throws, the session is as it was (no balance query, no
    payment), no output stream is created, and that error is logged. *)
Theorem payout_fails_before_connecting override senderInput p e :
  parseFromPromptToObject override = Return senderInput ->
  confirmed senderInput = true ->
  parseFromCsvToArray (inputCsv senderInput) = Throw e
  \/ ((exists txInputs,
         parseFromCsvToArray (inputCsv senderInput) = Return txInputs)
      /\ generateWallet (secret senderInput) (network senderInput) = Throw e) ->
  payout override p
  = (Return tt, {| session := session p; writeStreams := writeStreams p;
                   errorLog := e :: errorLog p |}).
Proof.
  intros Hprompt Hconfirmed Hfail.
  unfold payout, tryCatch, andThen, pure. rewrite Hprompt, Hconfirmed.
  cbn [negb done].
  destruct Hfail as [Hcsv | [[txInputs Hcsv] Hwallet]]; rewrite Hcsv;
    [reflexivity|].
  rewrite Hwallet. reflexivity.
Qed.

(** X16: when [connectToLedger] throws, the batch is not started and the
    output stream is not created: nothing was submitted, no payment status
    was asked for, and the error of the connection is logged. *)
Theorem payout_fails_connecting override senderInput txInputs generated p e :
  parseFromPromptToObject override = Return senderInput ->
  confirmed senderInput = true ->
  parseFromCsvToArray (inputCsv senderInput) = Return txInputs ->
  generateWallet (secret senderInput) (network senderInput) = Return generated ->
  fst (connectToLedger (grpcUrl senderInput) (network senderInput)
         (snd generated) (session p)) = Throw e ->
  fst (payout override p) = Return tt
  /\ errorLog (snd (payout override p)) = e :: errorLog p
  /\ writeStreams (snd (payout override p)) = writeStreams p
  /\ ledger (session (snd (payout override p))) = ledger (session p).
Proof.
  intros Hprompt Hconfirmed Hcsv Hwallet Hconnect.
  pose proof (connectToLedger_keeps_ledger (grpcUrl senderInput)
                (network senderInput) (snd generated) (session p))
    as Hledger.
  unfold payout, tryCatch, andThen, pure, inSession.
  rewrite Hprompt, Hconfirmed. cbn [negb done]. rewrite Hcsv, Hwallet.
  destruct (connectToLedger _ _ _ _) as [c s1]. cbn [fst snd] in *.
  subst c. cbn. repeat split. exact Hledger.
Qed.

End PayoutFacts.

(** * Witnesses of the further properties *)

Lemma checkPayment_only_polls_witness :
  exists k,
    polled "T1"%string 2 emptyLedger = polled "T1"%string k emptyLedger
    /\ (1 <= k <= 2)%nat
    /\ sent (polled "T1"%string 2 emptyLedger) = sent emptyLedger
    /\ queried (polled "T1"%string 2 emptyLedger)
       = repeat "T1"%string k ++ queried emptyLedger.
Proof.
  apply (checkPayment_only_polls (lib := fixtureLib) (cfg := config3)
           pendingClient "T1"%string 2 None None emptyLedger
           (Throw (RetryLimitReached 1))).
  reflexivity.
Defined.

Lemma checkPayment_rethrows_client_error_witness :
  checkPayment (lib := fixtureLib) (cfg := config3) 1
    (Build_XrpClient (lib := fixtureLib)
       (fun _ _ _ _ => Return "T1"%string)
       (fun _ _ => Throw (LibraryError "getPaymentStatus: unavailable")))
    "T1"%string None None emptyLedger
  = Some (Throw (LibraryError "getPaymentStatus: unavailable"),
          polled "T1"%string 1 emptyLedger).
Proof.
  apply (proj1 (checkPayment_rethrows_client_error (lib := fixtureLib)
                  (cfg := config3) _ "T1"%string 0 None None emptyLedger
                  (LibraryError "getPaymentStatus: unavailable"))).
  reflexivity.
Defined.

Lemma checkPayment_numRetries_forgotten_witness :
  checkPayment (lib := fixtureLib) (cfg := config3) 2 pendingClient
    "T1"%string (Some 1) None emptyLedger
  = checkPayment (lib := fixtureLib) (cfg := config3) 2 pendingClient
      "T1"%string (Some 7) None emptyLedger.
Proof.
  apply (checkPayment_numRetries_forgotten (lib := fixtureLib) (cfg := config3)
           pendingClient "T1"%string 2 1 7 None emptyLedger);
    reflexivity.
Defined.

Lemma checkPayment_never_completes_witness :
  checkPayment (lib := fixtureLib) (cfg := config0) 50 pendingClient
    "T1"%string (Some 1) None emptyLedger
  = None.
Proof.
  apply (checkPayment_never_completes (lib := fixtureLib) (cfg := config0)
           pendingClient "T1"%string 50 1 emptyLedger).
  - discriminate.
  - reflexivity.
  - intros n. destruct n as [|[|n]]; reflexivity.
Defined.

Lemma checkPayment_retries_once_witness :
  checkPayment (lib := fixtureLib) (cfg := config3) 2 pendingClient
    "T1"%string None None emptyLedger
  = Some (Throw (RetryLimitReached 1), polled "T1"%string 2 emptyLedger).
Proof.
  apply (checkPayment_retries_once (lib := fixtureLib) (cfg := config3)
           pendingClient "T1"%string 0 None emptyLedger).
  - discriminate.
  - reflexivity.
Defined.

Lemma submitPayment_refused_before_send_witness :
  submitPayment (lib := fixtureLib) fixtureWallet rejectingClient
    (recipient "alice" 10) 3%float emptyLedger
  = (Throw (LibraryError "xrpToDrops: value has too many decimal places."),
     emptyLedger).
Proof.
  apply (submitPayment_refused_before_send (lib := fixtureLib) fixtureWallet
           rejectingClient (recipient "alice" 10) 3%float emptyLedger).
  right. split; [eexists|]; reflexivity.
Defined.

Lemma submitPayment_sends_to_undefined_witness :
  submitPayment (lib := fixtureLib) fixtureWallet rejectingClient
    {| address := ""; destinationTag := None; usdAmount := 10; name := "nobody" |}
    0.5%float emptyLedger
  = (Throw (LibraryError "send: rejected"),
     recordSend (fixturePayment "20000000" None) emptyLedger).
Proof.
  apply (submitPayment_sends_to_undefined (lib := fixtureLib) fixtureWallet
           rejectingClient
           {| address := ""; destinationTag := None; usdAmount := 10;
              name := "nobody" |}
           0.5%float emptyLedger "20000000"%string);
    reflexivity.
Defined.

Lemma generateWallet_accepts_witness :
  generateWallet (lib := fixtureLib) "seed" Test
  = Return (Some "Xseed"%string, Some "rXseed"%string).
Proof.
  apply (generateWallet_accepts (lib := fixtureLib) "seed"%string Test
           "Xseed"%string
           (Some {| decodedAddress := "rXseed"; decodedTag := None;
                    decodedTest := true |}));
    reflexivity.
Defined.

Lemma generateWallet_fails_closed_witness :
  generateWallet (lib := fixtureLib) "" Test = Throw WalletGenerationFailed.
Proof.
  apply (proj1 (generateWallet_fails_closed (lib := fixtureLib) ""%string Test)
           None None);
    [reflexivity | reflexivity | left; reflexivity].
Defined.

Lemma connectToLedger_rethrows_witness :
  fst (connectToLedger (lib := fixtureLib) (con := fixtureConnect)
         "down" Test (Some "rXseed"%string) emptySession)
  = Throw (LibraryError "getBalance: unavailable").
Proof.
  apply (connectToLedger_rethrows (lib := fixtureLib) (con := fixtureConnect)
           "down"%string Test (Some "rXseed"%string) emptySession
           (Some "XrXseed"%string));
    [reflexivity | left; reflexivity].
Defined.

Lemma payout_stops_unconfirmed_witness :
  payout (lib := fixtureLib) (cfg := config3) (con := fixtureConnect)
    (imports := fixtureImports) (Some (senderInputOf "seed" "up" false))
    emptyProcess
  = (Return tt, {| session := emptySession; writeStreams := [];
                   errorLog := [payoutStopped] |}).
Proof.
  apply (payout_stops_unconfirmed (lib := fixtureLib) (cfg := config3)
           (con := fixtureConnect) (imports := fixtureImports)
           (Some (senderInputOf "seed" "up" false))
           (senderInputOf "seed" "up" false) emptyProcess);
    reflexivity.
Defined.

Lemma payout_fails_before_connecting_witness :
  payout (lib := fixtureLib) (cfg := config3) (con := fixtureConnect)
    (imports := fixtureImports) (Some (senderInputOf "" "up" true))
    emptyProcess
  = (Return tt, {| session := emptySession; writeStreams := [];
                   errorLog := [WalletGenerationFailed] |}).
Proof.
  apply (payout_fails_before_connecting (lib := fixtureLib) (cfg := config3)
           (con := fixtureConnect) (imports := fixtureImports)
           (Some (senderInputOf "" "up" true))
           (senderInputOf "" "up" true) emptyProcess WalletGenerationFailed);
    [reflexivity | reflexivity |].
  right. split; [eexists|]; reflexivity.
Defined.

Lemma payout_fails_connecting_witness :
  fst (payout (lib := fixtureLib) (cfg := config3) (con := fixtureConnect)
         (imports := fixtureImports) (Some (senderInputOf "seed" "down" true))
         emptyProcess) = Return tt
  /\ errorLog (snd (payout (lib := fixtureLib) (cfg := config3)
                      (con := fixtureConnect) (imports := fixtureImports)
                      (Some (senderInputOf "seed" "down" true)) emptyProcess))
     = [LibraryError "getBalance: unavailable"]
  /\ writeStreams (snd (payout (lib := fixtureLib) (cfg := config3)
                          (con := fixtureConnect) (imports := fixtureImports)
                          (Some (senderInputOf "seed" "down" true))
                          emptyProcess))
     = []
  /\ ledger (session (snd (payout (lib := fixtureLib) (cfg := config3)
                             (con := fixtureConnect) (imports := fixtureImports)
                             (Some (senderInputOf "seed" "down" true))
                             emptyProcess)))
     = emptyLedger.
Proof.
  apply (payout_fails_connecting (lib := fixtureLib) (cfg := config3)
           (con := fixtureConnect) (imports := fixtureImports)
           (Some (senderInputOf "seed" "down" true))
           (senderInputOf "seed" "down" true) [recipient "alice" 10]
           (Some "Xseed"%string, Some "rXseed"%string) emptyProcess
           (LibraryError "getBalance: unavailable"));
    reflexivity.
Defined.

(** The confirmed run against a node that answers: one balance query, the
    [TypeError] logged, no output stream and no payment. *)
Lemma payout_connected_run_pays_nothing :
  payout (lib := fixtureLib) (cfg := config3) (con := fixtureConnect)
    (imports := fixtureImports) (Some (senderInputOf "seed" "up" true))
    emptyProcess
  = (Return tt,
     {| session := {| ledger := emptyLedger;
                      balancesAsked := [Some "XrXseed"%string] |};
        writeStreams := [];
        errorLog := [notIterable] |}).
Proof. vm_compute. reflexivity. Qed.

